(** * serial_handler: an HTTP-to-serial bridge

    Shallow embedding of [electron/serial_handler.py].  The script opens
    the serial port COM3 at 9600 baud when the module is executed,
    registers one Flask route, [POST /open], whose view function writes the
    byte [b'O'] to the port and returns the dict [{'status': 'success'}],
    and then starts the development server on TCP port 3000.

    The script has two collaborators that are not part of it: the serial
    driver behind [serial.Serial] and the Flask request dispatcher.  Both
    are modelled here as far as the script uses them: the driver as an
    oracle ([Env]) saying which calls raise, the dispatcher as the
    rule matching and response building that [app.route] and [app.run]
    rely on. *)

From stdpp Require Import gmap strings list.
From Stdlib Require Import ZArith Lia.
From Stdlib Require Import Init.Byte.

Open Scope string_scope.
Open Scope Z_scope.
Open Scope list_scope.

(** ** Exceptions *)

(** Why the operating system refuses an operation on the port. *)
Inductive io_error :=
| DeviceAbsent
| PermissionDenied
| DeviceBusy
| Disconnected.

(** The exceptions that can travel through the script. *)
Inductive exn :=
| SerialException (cause : io_error)
| SerialTimeoutException
| PortNotOpenError
| NameError (name : string).

(** ** The outside world *)

(** What the hardware does is not decided by the script.  [open_outcome]
    answers the call [serial.Serial(port, baudrate)]: [None] when the
    operating system grants the port.  [write_outcome k] answers the write
    that is preceded by [k] earlier writes: [None] when the driver takes
    the data, [Some e] when the call raises [e]. *)
Record Env := {
  open_outcome : string → Z → option io_error;
  write_outcome : nat → option exn
}.

(** A [serial.Serial] object. *)
Record SerialPort := {
  portstr : string;
  baudrate : Z;
  is_open : bool
}.

(** What an observer of the process sees, in order. *)
Inductive event :=
| EvOpen (port : string) (baud : Z) (res : option io_error)
| EvWrite (h : nat) (data : list byte) (res : option exn)
| EvListen (tcp : Z)
| EvRequest (method path : string).

(** The state of the process: every [Serial] object created so far (an
    object is named by its position), the binding of the module-level name
    [ser], and the events so far. *)
Record World := {
  handles : list SerialPort;
  g_ser : option nat;
  trace : list event
}.

Definition initial : World :=
  {| handles := []; g_ser := None; trace := [] |}.

Definition log (e : event) (w : World) : World :=
  {| handles := handles w; g_ser := g_ser w; trace := trace w ++ [e] |}.

(** ** Reading a trace *)

Definition is_open_event (e : event) : bool :=
  match e with EvOpen _ _ _ => true | _ => false end.

(** The payloads handed to [write], one entry per call, in order. *)
Fixpoint writes (tr : list event) : list (list byte) :=
  match tr with
  | [] => []
  | EvWrite _ data _ :: tr' => data :: writes tr'
  | _ :: tr' => writes tr'
  end.

(** The number of [serial.Serial(...)] calls. *)
Fixpoint opens (tr : list event) : nat :=
  match tr with
  | [] => 0%nat
  | EvOpen _ _ _ :: tr' => S (opens tr')
  | _ :: tr' => opens tr'
  end.

(** The number of [Serial] objects whose port is open. *)
Definition open_handles (w : World) : nat :=
  length (filter (λ p, is_open p = true) (handles w)).

(** ** Computations that change the world and may raise *)

Definition M (A : Type) : Type := World → World * (exn + A).

Definition raise {A} (e : exn) : M A := λ w, (w, inl e).

#[export] Instance M_ret : MRet M := λ A a w, (w, inr a).

#[export] Instance M_bind : MBind M := λ A B k c w,
  match c w with
  | (w', inr a) => k a w'
  | (w', inl e) => (w', inl e)
  end.

(** ** HTTP messages *)

(** A request as the view can read it through [flask.request]; [method]
    is in upper case, as [request.method] gives it. *)
Record Request := {
  method : string;
  path : string;
  headers : list (string * string);
  args : list (string * string);
  data : list byte
}.

Inductive Body :=
| JsonBody (d : gmap string string)
| HtmlBody (page : string)
| EmptyBody.

Record Response := {
  status_code : Z;
  mimetype : string;
  body : Body;
  allow : list string
}.

(** What a view function may return: a dict or a string. *)
Inductive view_rv :=
| RvDict (d : gmap string string)
| RvStr (s : string).

Section Program.

Context (env : Env).

(** ** pySerial *)

(** [serial.Serial(port, baudrate)]: the port is opened in the
    constructor; when the operating system refuses, the constructor raises
    and no object exists. *)
Definition Serial (port : string) (baud : Z) : M nat := λ w,
  match open_outcome env port baud with
  | Some cause =>
      (log (EvOpen port baud (Some cause)) w, inl (SerialException cause))
  | None =>
      let h := length (handles w) in
      let p := {| portstr := port; baudrate := baud; is_open := true |} in
      ({| handles := handles w ++ [p];
          g_ser := g_ser w;
          trace := trace w ++ [EvOpen port baud None] |}, inr h)
  end.

(** What the call [h.write(data)] comes to: a port that is not open
    raises [PortNotOpenError]; otherwise the driver decides. *)
Definition write_result (w : World) (h : nat) : option exn :=
  match handles w !! h with
  | Some p =>
      if is_open p then write_outcome env (length (writes (trace w)))
      else Some PortNotOpenError
  | None => Some PortNotOpenError
  end.

(** [h.write(data)] returns the number of bytes written. *)
Definition write (h : nat) (data : list byte) : M nat := λ w,
  let res := write_result w h in
  let w' := log (EvWrite h data res) w in
  match res with
  | None => (w', inr (length data))
  | Some e => (w', inl e)
  end.

(** ** Flask *)

Record Rule := {
  rule : string;
  methods : list string;
  endpoint : string;
  provide_automatic_options : bool
}.

Record Flask := {
  import_name : string;
  url_map : list Rule;
  view_functions : gmap string (Request → M view_rv)
}.

(** [Flask(name)].  The rule that a new application has for its static
    files is left out: its view serves files and does not touch the
    port. *)
Definition Flask_new (name : string) : Flask :=
  {| import_name := name; url_map := []; view_functions := ∅ |}.

Definition mem (s : string) (l : list string) : bool :=
  bool_decide (s ∈ l).

(** [app.route(rule, methods=...)(f)], that is [add_url_rule]: unless the
    methods name OPTIONS themselves, OPTIONS is added to them and the rule
    answers it automatically; a rule for GET also takes HEAD.  The endpoint
    is the name of the function. *)
Definition route (app : Flask) (r : string) (ms : list string)
    (name : string) (f : Request → M view_rv) : Flask :=
  let auto := negb (mem "OPTIONS" ms) in
  let ms1 := if auto then ms ++ ["OPTIONS"] else ms in
  let ms' := if mem "GET" ms1 && negb (mem "HEAD" ms1)
             then ms1 ++ ["HEAD"] else ms1 in
  {| import_name := import_name app;
     url_map := url_map app ++
       [{| rule := r; methods := ms'; endpoint := name;
           provide_automatic_options := auto |}];
     view_functions := <[name := f]> (view_functions app) |}.

Inductive HTTPException :=
| NotFound
| MethodNotAllowed (valid_methods : list string).

(** URL matching: the first rule with this path and this method; when
    only the path matched, 405 with the methods of the rules that matched
    it; otherwise 404.  The rules of this script have no variable parts, so
    a path matches a rule when it is the rule. *)
Fixpoint match_rules (rules : list Rule) (m p : string)
    (have_match_for : list string) : HTTPException + Rule :=
  match rules with
  | [] =>
      match have_match_for with
      | [] => inl NotFound
      | _ => inl (MethodNotAllowed have_match_for)
      end
  | r :: rules' =>
      if bool_decide (rule r = p) then
        if mem m (methods r) then inr r
        else match_rules rules' m p (have_match_for ++ methods r)
      else match_rules rules' m p have_match_for
  end.

(** The response for a dict is its JSON rendering; for a string, a page. *)
Definition make_response (rv : view_rv) : Response :=
  match rv with
  | RvDict d =>
      {| status_code := 200; mimetype := "application/json";
         body := JsonBody d; allow := [] |}
  | RvStr s =>
      {| status_code := 200; mimetype := "text/html";
         body := HtmlBody s; allow := [] |}
  end.

Definition http_exception_response (e : HTTPException) : Response :=
  match e with
  | NotFound =>
      {| status_code := 404; mimetype := "text/html";
         body := HtmlBody "Not Found"; allow := [] |}
  | MethodNotAllowed ms =>
      {| status_code := 405; mimetype := "text/html";
         body := HtmlBody "Method Not Allowed"; allow := ms |}
  end.

(** What the framework answers when a view raised. *)
Definition internal_server_error : Response :=
  {| status_code := 500; mimetype := "text/html";
     body := HtmlBody "Internal Server Error"; allow := [] |}.

Definition default_options_response (r : Rule) : Response :=
  {| status_code := 200; mimetype := "text/html";
     body := EmptyBody; allow := methods r |}.

(** One request through the application: match the URL, answer OPTIONS
    automatically where the rule says so, otherwise call the view, which
    may read the request; an exception of the view becomes the 500
    response. *)
Definition wsgi_app (app : Flask) (req : Request) : World → World * Response :=
  λ w,
  let w1 := log (EvRequest (method req) (path req)) w in
  match match_rules (url_map app) (method req) (path req) [] with
  | inl e => (w1, http_exception_response e)
  | inr r =>
      if provide_automatic_options r && bool_decide (method req = "OPTIONS")
      then (w1, default_options_response r)
      else
        match view_functions app !! endpoint r with
        | None => (w1, internal_server_error)
        | Some view =>
            match view req w1 with
            | (w2, inr rv) => (w2, make_response rv)
            | (w2, inl _) => (w2, internal_server_error)
            end
        end
  end.

(** The server loop, on the requests that arrive while the process
    lives. *)
Fixpoint serve (app : Flask) (reqs : list Request) (w : World)
    : World * list Response :=
  match reqs with
  | [] => (w, [])
  | req :: reqs' =>
      let '(w1, resp) := wsgi_app app req w in
      let '(w2, resps) := serve app reqs' w1 in
      (w2, resp :: resps)
  end.

(** [app.run(port=...)]: listen, then serve. *)
Definition run (app : Flask) (tcp : Z) (reqs : list Request)
    : M (list Response) := λ w,
  let '(w', resps) := serve app reqs (log (EvListen tcp) w) in
  (w', inr resps).

(** ** The script *)

(** The module-level name [ser], looked up when the view runs. *)
Definition ser : M nat := λ w,
  match g_ser w with
  | Some h => (w, inr h)
  | None => raise (NameError "ser") w
  end.

Definition set_ser (h : nat) : M unit := λ w,
  ({| handles := handles w; g_ser := Some h; trace := trace w |}, inr ()).

(** [def open_door(): ser.write(b'O'); return {'status': 'success'}] *)
Definition open_door (request : Request) : M view_rv :=
  h ← ser;
  write h [x4f];;
  mret (RvDict {["status" := "success"]}).

(** [app = Flask(__name__)] once the decorator has run.  The import
    name is the one of the script being run, the only case in which this
    module serves [app] itself; it plays no part in routing. *)
Definition app : Flask :=
  route (Flask_new "__main__") "/open" ["POST"] "open_door" open_door.

(** The statements of the module, top to bottom.  [name] is [__name__];
    [reqs] are the requests that arrive once the server listens.
    Creating [app] and decorating [open_door] touch neither the port nor
    the network, so only [serial.Serial] and [app.run] are steps here. *)
Definition module_body (name : string) (reqs : list Request)
    : M (list Response) :=
  h ← Serial "COM3" 9600;
  set_ser h;;
  if bool_decide (name = "__main__") then run app 3000 reqs else mret [].

(** Running the script: [python serial_handler.py]. *)
Definition main (reqs : list Request) : World * (exn + list Response) :=
  module_body "__main__" reqs initial.

End Program.

(** ** Named values *)

(** The port object that [serial.Serial('COM3', 9600)] creates. *)
Definition com3 : SerialPort :=
  {| portstr := "COM3"; baudrate := 9600; is_open := true |}.

(** The dict that [open_door] returns. *)
Definition success : gmap string string := {["status" := "success"]}.

(** The response of the framework for that dict. *)
Definition ok_response : Response :=
  {| status_code := 200; mimetype := "application/json";
     body := JsonBody success; allow := [] |}.

(** The response to [POST /open], given what the write came to. *)
Definition response_of_write (res : option exn) : Response :=
  match res with
  | None => ok_response
  | Some _ => internal_server_error
  end.

(** The rule that the decorator registers. *)
Definition open_rule : Rule :=
  {| rule := "/open"; methods := ["POST"; "OPTIONS"];
     endpoint := "open_door"; provide_automatic_options := true |}.

Definition is_post_open (req : Request) : bool :=
  bool_decide (method req = "POST") && bool_decide (path req = "/open").

(** A response that refuses the request. *)
Definition rejected (r : Response) : Prop := 400 ≤ status_code r.

(** The state in which the server listens, before any request. *)
Definition listening : World :=
  {| handles := [com3]; g_ser := Some 0%nat;
     trace := [EvOpen "COM3" 9600 None; EvListen 3000] |}.

(** The state after a refused [serial.Serial('COM3', 9600)]. *)
Definition refused (cause : io_error) : World :=
  {| handles := []; g_ser := None;
     trace := [EvOpen "COM3" 9600 (Some cause)] |}.

(** The state after the module has been imported by another program. *)
Definition imported : World :=
  {| handles := [com3]; g_ser := Some 0%nat;
     trace := [EvOpen "COM3" 9600 None] |}.

(** The state of the server after one [POST /open]. *)
Definition opened_once : World :=
  {| handles := [com3]; g_ser := Some 0%nat;
     trace := [EvOpen "COM3" 9600 None; EvListen 3000;
               EvRequest "POST" "/open"; EvWrite 0 [x4f] None] |}.

(** The events that a step adds to the trace contain no call of
    [serial.Serial]; the port objects and the name [ser] stay as they
    are. *)
Definition keeps_handles (w w' : World) : Prop :=
  handles w' = handles w ∧ g_ser w' = g_ser w ∧
  ∃ evs, trace w' = trace w ++ evs ∧ opens evs = 0%nat.

(** ** Some environments and requests *)

(** Hardware that never fails. *)
Definition calm : Env :=
  {| open_outcome := λ _ _, None; write_outcome := λ _, None |}.

(** Hardware that is unplugged during the second write. *)
Definition flaky : Env :=
  {| open_outcome := λ _ _, None;
     write_outcome := λ k,
       if (k =? 1)%nat then Some (SerialException Disconnected) else None |}.

(** No such device. *)
Definition absent : Env :=
  {| open_outcome := λ _ _, Some DeviceAbsent; write_outcome := λ _, None |}.

Definition request (m p : string) (payload : list byte) : Request :=
  {| method := m; path := p; headers := []; args := []; data := payload |}.

Definition post_open : Request := request "POST" "/open" [].

(** A [POST /open] that carries a body, a header and a query argument. *)
Definition loaded_post_open : Request :=
  {| method := "POST"; path := "/open";
     headers := [("Content-Type", "application/json")];
     args := [("door", "2")];
     data := [x7b; x7d] |}.

(** ** Reading a whole run *)

(** The TCP ports on which the server started to listen, in order. *)
Fixpoint listens (tr : list event) : list Z :=
  match tr with
  | [] => []
  | EvListen tcp :: tr' => tcp :: listens tr'
  | _ :: tr' => listens tr'
  end.

(** The bytes that reached the device, in order: the payloads of the
    writes that the driver took.  A write that raises hands nothing on. *)
Fixpoint delivered (tr : list event) : list byte :=
  match tr with
  | [] => []
  | EvWrite _ payload None :: tr' => payload ++ delivered tr'
  | _ :: tr' => delivered tr'
  end.

(** What handling requests may add to the trace: the arrival of a
    request, or a write of [b'O'] through the first port object. *)
Definition door_event (e : event) : Prop :=
  match e with
  | EvRequest _ _ => True
  | EvWrite h payload _ => h = 0%nat ∧ payload = [x4f]
  | _ => False
  end.

(** In state [w], the event is no write, or a write of [b'O'] through the
    object of the port COM3 at 9600 baud. *)
Definition writes_to_com3 (w : World) (e : event) : Prop :=
  match e with
  | EvWrite h payload _ => handles w !! h = Some com3 ∧ payload = [x4f]
  | _ => True
  end.

(** The number of [POST /open] requests among [reqs]. *)
Definition post_opens (reqs : list Request) : nat :=
  length (List.filter is_post_open reqs).

(** Requests of several kinds; two of them are [POST /open]. *)
Definition traffic : list Request :=
  [request "GET" "/open" []; post_open; request "POST" "/close" [];
   request "OPTIONS" "/open" []; loaded_post_open; request "GET" "/" []].

(** * Properties *)

(** ** Traces *)

Lemma writes_app (tr1 tr2 : list event) :
  writes (tr1 ++ tr2) = writes tr1 ++ writes tr2.
Proof.
  induction tr1 as [|e tr1 IH]; [done|].
  destruct e; simpl; by rewrite ?IH.
Qed.

Lemma opens_app (tr1 tr2 : list event) :
  opens (tr1 ++ tr2) = (opens tr1 + opens tr2)%nat.
Proof.
  induction tr1 as [|e tr1 IH]; [done|].
  destruct e; simpl; by rewrite ?IH.
Qed.

Lemma writes_log_request (w : World) (m p : string) :
  writes (trace (log (EvRequest m p) w)) = writes (trace w).
Proof. simpl. rewrite writes_app. simpl. by rewrite app_nil_r. Qed.

Lemma delivered_app (tr1 tr2 : list event) :
  delivered (tr1 ++ tr2) = delivered tr1 ++ delivered tr2.
Proof.
  induction tr1 as [|e tr1 IH]; [done|].
  destruct e as [| ? ? [] | |]; simpl; rewrite ?IH; [done.. | | done | done].
  by rewrite app_assoc.
Qed.

(** ** The application *)

Lemma app_rules (env : Env) : url_map (app env) = [open_rule].
Proof. reflexivity. Qed.

Lemma app_view (env : Env) :
  view_functions (app env) !! "open_door" = Some (open_door env).
Proof. unfold app, route. simpl. apply lookup_insert_eq. Qed.

Lemma write_result_log_request (env : Env) (w : World) (m p : string) (h : nat) :
  write_result env (log (EvRequest m p) w) h = write_result env w h.
Proof. unfold write_result. by rewrite writes_log_request. Qed.

(** The view, run in a state where the name [ser] is bound. *)
Lemma open_door_run (env : Env) (req : Request) (w : World) (h : nat) :
  g_ser w = Some h →
  open_door env req w =
    (log (EvWrite h [x4f] (write_result env w h)) w,
     match write_result env w h with
     | None => inr (RvDict success)
     | Some e => inl e
     end).
Proof.
  intros Hser. unfold open_door, mbind, M_bind, ser, write. rewrite Hser.
  by destruct (write_result env w h).
Qed.

(** [POST /open], in a state where the name [ser] is bound. *)
Lemma wsgi_post_open (env : Env) (req : Request) (w : World) (h : nat) :
  method req = "POST" → path req = "/open" → g_ser w = Some h →
  wsgi_app (app env) req w =
    (log (EvWrite h [x4f] (write_result env w h))
       (log (EvRequest "POST" "/open") w),
     response_of_write (write_result env w h)).
Proof.
  intros Hm Hp Hser. unfold wsgi_app. rewrite app_rules, Hm, Hp. simpl.
  rewrite lookup_insert_eq, (open_door_run env req _ h) by done.
  rewrite write_result_log_request.
  by destruct (write_result env w h).
Qed.

(** Any other method on [/open]: the view is not called. *)
Lemma wsgi_other_method (env : Env) (req : Request) (w : World) :
  path req = "/open" → method req ≠ "POST" →
  wsgi_app (app env) req w =
    (log (EvRequest (method req) "/open") w,
     if bool_decide (method req = "OPTIONS")
     then default_options_response open_rule
     else http_exception_response (MethodNotAllowed ["POST"; "OPTIONS"])).
Proof.
  intros Hp Hm. unfold wsgi_app. rewrite app_rules, Hp.
  unfold match_rules, mem. simpl rule. rewrite bool_decide_eq_true_2 by done.
  destruct (decide (method req = "OPTIONS")) as [Ho|Ho].
  - rewrite Ho. reflexivity.
  - rewrite (bool_decide_eq_false_2 (method req ∈ _)).
    + simpl. by rewrite (bool_decide_eq_false_2 (method req = "OPTIONS")).
    + simpl. rewrite !elem_of_cons, elem_of_nil. tauto.
Qed.

(** ** What a request leaves alone *)

Lemma keeps_handles_refl (w : World) : keeps_handles w w.
Proof. repeat split. exists []. by rewrite app_nil_r. Qed.

Lemma keeps_handles_trans (w1 w2 w3 : World) :
  keeps_handles w1 w2 → keeps_handles w2 w3 → keeps_handles w1 w3.
Proof.
  intros (Hh1 & Hg1 & evs1 & Ht1 & Ho1) (Hh2 & Hg2 & evs2 & Ht2 & Ho2).
  repeat split; [congruence..|].
  exists (evs1 ++ evs2). rewrite Ht2, Ht1, opens_app, Ho1, Ho2.
  by rewrite <- app_assoc.
Qed.

Lemma keeps_handles_log (w : World) (e : event) :
  is_open_event e = false → keeps_handles w (log e w).
Proof.
  intros He. repeat split. exists [e]. split; [done|].
  by destruct e.
Qed.

Lemma open_door_keeps (env : Env) (req : Request) (w : World) :
  keeps_handles w (fst (open_door env req w)).
Proof.
  destruct (g_ser w) as [h|] eqn:Hser.
  - rewrite (open_door_run env req w h Hser). simpl fst.
    by apply keeps_handles_log.
  - unfold open_door, mbind, M_bind, ser. rewrite Hser.
    apply keeps_handles_refl.
Qed.

Lemma wsgi_app_keeps (env : Env) (req : Request) (w : World) :
  keeps_handles w (fst (wsgi_app (app env) req w)).
Proof.
  pose proof (keeps_handles_log w (EvRequest (method req) (path req)) eq_refl)
    as Hlog.
  unfold wsgi_app. rewrite app_rules.
  destruct (match_rules _ _ _ _) as [e|r] eqn:Hmatch; [done|].
  assert (r = open_rule) as ->.
  { simpl in Hmatch. repeat case_match; congruence. }
  destruct (_ && _); [done|].
  simpl endpoint. rewrite app_view.
  pose proof (open_door_keeps env req (log (EvRequest (method req) (path req)) w))
    as Hview.
  destruct (open_door env req _) as [w2 [e|rv]]; simpl in *;
    by eapply keeps_handles_trans.
Qed.

Lemma serve_keeps (env : Env) (reqs : list Request) (w : World) :
  keeps_handles w (fst (serve (app env) reqs w)).
Proof.
  revert w. induction reqs as [|req reqs IH]; intros w.
  - apply keeps_handles_refl.
  - simpl. pose proof (wsgi_app_keeps env req w) as H1.
    destruct (wsgi_app (app env) req w) as [w1 resp]. simpl in H1.
    pose proof (IH w1) as H2.
    destruct (serve (app env) reqs w1) as [w2 resps]. simpl in *.
    by eapply keeps_handles_trans.
Qed.

(** ** Start-up *)

Lemma module_body_refused (env : Env) (name : string) (reqs : list Request)
    (cause : io_error) :
  open_outcome env "COM3" 9600 = Some cause →
  module_body env name reqs initial = (refused cause, inl (SerialException cause)).
Proof.
  intros Hopen. unfold module_body, mbind, M_bind, Serial. by rewrite Hopen.
Qed.

Lemma module_body_main (env : Env) (reqs : list Request) :
  open_outcome env "COM3" 9600 = None →
  module_body env "__main__" reqs initial =
    (fst (serve (app env) reqs listening),
     inr (snd (serve (app env) reqs listening))).
Proof.
  intros Hopen. unfold module_body, mbind, M_bind, Serial. rewrite Hopen.
  simpl. unfold run. simpl.
  change (log (EvListen 3000) _) with listening.
  by destruct (serve (app env) reqs listening).
Qed.

Lemma module_body_imported (env : Env) (name : string) (reqs : list Request) :
  open_outcome env "COM3" 9600 = None → name ≠ "__main__" →
  module_body env name reqs initial = (imported, inr []).
Proof.
  intros Hopen Hname. unfold module_body, mbind, M_bind, Serial.
  rewrite Hopen. simpl. by rewrite bool_decide_eq_false_2.
Qed.

(** ** Serving [POST /open] *)

Lemma is_post_open_spec (req : Request) :
  is_post_open req = true ↔ method req = "POST" ∧ path req = "/open".
Proof.
  unfold is_post_open. rewrite andb_true_iff, !bool_decide_eq_true. tauto.
Qed.

(** With the port open, the driver alone decides what a write comes to. *)
Lemma write_result_open (env : Env) (w : World) (h : nat) (p : SerialPort) :
  handles w !! h = Some p → is_open p = true →
  write_result env w h = write_outcome env (length (writes (trace w))).
Proof. intros Hh Hp. unfold write_result. by rewrite Hh, Hp. Qed.

Lemma writes_after_post_open (w : World) (h : nat) (res : option exn) :
  writes (trace (log (EvWrite h [x4f] res) (log (EvRequest "POST" "/open") w)))
  = writes (trace w) ++ [[x4f]].
Proof. simpl. rewrite !writes_app. simpl. by rewrite app_nil_r. Qed.

(** A run of [POST /open] requests from a state with the port open: one
    write of [b'O'] per request, and to each request the response that
    its own write calls for. *)
Lemma serve_post_open (env : Env) (reqs : list Request) :
  ∀ (w : World) (h : nat) (p : SerialPort),
    forallb is_post_open reqs = true →
    g_ser w = Some h → handles w !! h = Some p → is_open p = true →
    writes (trace (fst (serve (app env) reqs w)))
      = writes (trace w) ++ replicate (length reqs) [x4f] ∧
    snd (serve (app env) reqs w)
      = map (λ k, response_of_write (write_outcome env k))
            (seq (length (writes (trace w))) (length reqs)).
Proof.
  induction reqs as [|req reqs IH]; intros w h p Hall Hser Hh Hp.
  - simpl. by rewrite app_nil_r.
  - simpl in Hall. apply andb_true_iff in Hall as [Hreq Hall].
    apply is_post_open_spec in Hreq as [Hm Hpath].
    simpl serve. rewrite (wsgi_post_open env req w h Hm Hpath Hser).
    rewrite (write_result_open env w h p Hh Hp).
    pose proof (writes_after_post_open w h
      (write_outcome env (length (writes (trace w))))) as Hw1.
    set (w1 := log (EvWrite h [x4f] _) _) in *.
    destruct (IH w1 h p Hall Hser Hh Hp) as [Hw Hr].
    rewrite Hw1 in Hw, Hr.
    destruct (serve (app env) reqs w1) as [w2 resps].
    simpl fst in *. simpl snd in *. split.
    + by rewrite Hw, <- app_assoc.
    + rewrite Hr, length_app. simpl. by rewrite Nat.add_1_r.
Qed.

(** Every state of the listening server has the one port of start-up,
    open, under the name [ser]. *)
Lemma serving_state (env : Env) (reqs : list Request) :
  handles (fst (serve (app env) reqs listening)) = [com3] ∧
  g_ser (fst (serve (app env) reqs listening)) = Some 0%nat.
Proof. by destruct (serve_keeps env reqs listening) as (-> & -> & _). Qed.

(** The state and the handles at the end of a run of the module. *)
Lemma module_body_handles (env : Env) (name : string) (reqs : list Request) :
  handles (fst (module_body env name reqs initial))
    = match open_outcome env "COM3" 9600 with
      | None => [com3]
      | Some _ => []
      end ∧
  g_ser (fst (module_body env name reqs initial))
    = match open_outcome env "COM3" 9600 with
      | None => Some 0%nat
      | Some _ => None
      end.
Proof.
  destruct (open_outcome env "COM3" 9600) as [cause|] eqn:Hopen.
  - by rewrite (module_body_refused env name reqs cause Hopen).
  - destruct (decide (name = "__main__")) as [->|Hname].
    + rewrite (module_body_main env reqs Hopen). apply serving_state.
    + by rewrite (module_body_imported env name reqs Hopen Hname).
Qed.

(** ** The claims *)

(** C1. Whenever [POST /open] is handled while the port behind [ser] is
    open and the write succeeds, the view returns the dict
    [{'status': 'success'}] and the response is HTTP 200 with content type
    application/json and exactly that JSON body. *)
Theorem post_open_succeeds (env : Env) (w : World) (req : Request)
    (h : nat) (p : SerialPort) :
  method req = "POST" → path req = "/open" →
  g_ser w = Some h → handles w !! h = Some p → is_open p = true →
  write_outcome env (length (writes (trace w))) = None →
  snd (open_door env req w) = inr (RvDict {["status" := "success"]}) ∧
  snd (wsgi_app (app env) req w) =
    {| status_code := 200; mimetype := "application/json";
       body := JsonBody {["status" := "success"]}; allow := [] |}.
Proof.
  intros Hm Hpath Hser Hh Hp Hwrite.
  rewrite (open_door_run env req w h Hser).
  rewrite (wsgi_post_open env req w h Hm Hpath Hser).
  by rewrite (write_result_open env w h p Hh Hp), Hwrite.
Qed.

Lemma post_open_succeeds_witness :
  snd (open_door calm post_open listening)
    = inr (RvDict {["status" := "success"]}) ∧
  snd (wsgi_app (app calm) post_open listening) =
    {| status_code := 200; mimetype := "application/json";
       body := JsonBody {["status" := "success"]}; allow := [] |}.
Proof.
  apply (post_open_succeeds calm listening post_open 0%nat com3);
    reflexivity.
Defined.

(** C2, as stated, fails: of two [POST /open] requests, the second hit
    by an unplugged port, each issues its write, but only the byte of the
    first reaches the device; the second invocation writes none. *)
Lemma failed_write_delivers_nothing :
  writes (trace (fst (main flaky [post_open; post_open]))) = [[x4f]; [x4f]] ∧
  delivered (trace (fst (main flaky [post_open; post_open]))) = [x4f] ∧
  delivered (trace (fst (wsgi_app (app flaky) post_open
                           (fst (wsgi_app (app flaky) post_open listening)))))
    = delivered (trace (fst (wsgi_app (app flaky) post_open listening))).
Proof. repeat split. Qed.

(** C2, amended. Every [POST /open] handled while the port behind [ser]
    is open issues exactly one write to the port, with the single byte
    0x4F ('O') as payload, and no other: the request adds to the trace its
    own arrival and that one write.  When the driver accepts the write,
    exactly that one byte reaches the device; when the write raises, no
    byte does. *)
Theorem post_open_writes_one_byte (env : Env) (w : World) (req : Request)
    (h : nat) (p : SerialPort) :
  method req = "POST" → path req = "/open" →
  g_ser w = Some h → handles w !! h = Some p → is_open p = true →
  trace (fst (wsgi_app (app env) req w))
    = trace w ++ [EvRequest "POST" "/open";
                  EvWrite h [x4f]
                    (write_outcome env (length (writes (trace w))))] ∧
  writes (trace (fst (wsgi_app (app env) req w)))
    = writes (trace w) ++ [[x4f]] ∧
  delivered (trace (fst (wsgi_app (app env) req w)))
    = delivered (trace w)
      ++ match write_outcome env (length (writes (trace w))) with
         | None => [x4f]
         | Some _ => []
         end ∧
  Byte.to_N x4f = 0x4F%N.
Proof.
  intros Hm Hpath Hser Hh Hp.
  rewrite (wsgi_post_open env req w h Hm Hpath Hser).
  rewrite (write_result_open env w h p Hh Hp). simpl fst.
  split; [simpl; by rewrite <- app_assoc|].
  split; [apply writes_after_post_open|].
  split; [|done].
  simpl. rewrite !delivered_app. simpl.
  destruct (write_outcome env _); simpl; by rewrite ?app_nil_r.
Qed.

Lemma post_open_writes_one_byte_witness :
  trace (fst (wsgi_app (app flaky) post_open opened_once))
    = trace opened_once
      ++ [EvRequest "POST" "/open";
          EvWrite 0%nat [x4f]
            (write_outcome flaky (length (writes (trace opened_once))))] ∧
  writes (trace (fst (wsgi_app (app flaky) post_open opened_once)))
    = writes (trace opened_once) ++ [[x4f]] ∧
  delivered (trace (fst (wsgi_app (app flaky) post_open opened_once)))
    = delivered (trace opened_once)
      ++ match write_outcome flaky (length (writes (trace opened_once))) with
         | None => [x4f]
         | Some _ => []
         end ∧
  Byte.to_N x4f = 0x4F%N.
Proof.
  apply (post_open_writes_one_byte flaky opened_once post_open 0%nat com3);
    reflexivity.
Defined.

(** C3, as stated, fails: when the port is unplugged during the second
    of two [POST /open] requests, the two responses differ. *)
Lemma flaky_responses_differ :
  snd (main flaky [post_open; post_open])
    = inr [ok_response; internal_server_error] ∧
  ok_response ≠ internal_server_error.
Proof. split; [reflexivity|discriminate]. Qed.

(** C3, amended. A run of N [POST /open] requests issues exactly N writes
    of the byte 0x4F, whatever the writes come to; the response to the
    k-th request depends on its own write alone, not on N or on earlier
    requests, and is the same 200 response for every request whose write
    succeeds. *)
Theorem open_n_times (env : Env) (reqs : list Request) :
  open_outcome env "COM3" 9600 = None →
  forallb is_post_open reqs = true →
  writes (trace (fst (main env reqs))) = replicate (length reqs) [x4f] ∧
  snd (main env reqs) =
    inr (map (λ k, match write_outcome env k with
                   | None => ok_response
                   | Some _ => internal_server_error
                   end)
             (seq 0 (length reqs))).
Proof.
  intros Hopen Hall. unfold main.
  rewrite (module_body_main env reqs Hopen). simpl fst. simpl snd.
  destruct (serve_post_open env reqs listening 0%nat com3 Hall)
    as [Hw Hr]; [done..|].
  by rewrite Hw, Hr.
Qed.

Lemma open_n_times_witness :
  writes (trace (fst (main flaky [post_open; post_open; post_open])))
    = replicate 3 [x4f] ∧
  snd (main flaky [post_open; post_open; post_open]) =
    inr (map (λ k, match write_outcome flaky k with
                   | None => ok_response
                   | Some _ => internal_server_error
                   end)
             (seq 0 3)).
Proof.
  apply (open_n_times flaky [post_open; post_open; post_open]);
    reflexivity.
Defined.

(** C4, as stated, fails: the second request of the run above, whose
    write raises, is not answered with the body [{"status": "success"}]. *)
Lemma failed_write_body_differs :
  body (snd (wsgi_app (app flaky) post_open
               (fst (wsgi_app (app flaky) post_open listening))))
    ≠ JsonBody {["status" := "success"]}.
Proof.
  rewrite (wsgi_post_open flaky post_open _ 0%nat) by reflexivity.
  discriminate.
Qed.

(** C4, amended. The body of the response to [POST /open] is the mapping
    [{"status": "success"}] when the write succeeds; when the write
    raises, it is the error page of the framework. *)
Theorem post_open_body (env : Env) (w : World) (req : Request)
    (h : nat) (p : SerialPort) :
  method req = "POST" → path req = "/open" →
  g_ser w = Some h → handles w !! h = Some p → is_open p = true →
  body (snd (wsgi_app (app env) req w)) =
    match write_outcome env (length (writes (trace w))) with
    | None => JsonBody {["status" := "success"]}
    | Some _ => HtmlBody "Internal Server Error"
    end.
Proof.
  intros Hm Hpath Hser Hh Hp.
  rewrite (wsgi_post_open env req w h Hm Hpath Hser).
  rewrite (write_result_open env w h p Hh Hp).
  by destruct (write_outcome env _).
Qed.

Lemma post_open_body_witness :
  body (snd (wsgi_app (app flaky) post_open listening)) =
    match write_outcome flaky (length (writes (trace listening))) with
    | None => JsonBody {["status" := "success"]}
    | Some _ => HtmlBody "Internal Server Error"
    end.
Proof.
  apply (post_open_body flaky listening post_open 0%nat com3); reflexivity.
Defined.


(** C6. When the port cannot be opened, whatever the cause, the
    exception of [serial.Serial] ends the module: the run stops with that
    exception, the server never listens, no request is handled, and no
    port object exists. *)
Theorem open_failure_stops_startup (env : Env) (name : string)
    (reqs : list Request) (cause : io_error) :
  open_outcome env "COM3" 9600 = Some cause →
  snd (module_body env name reqs initial) = inl (SerialException cause) ∧
  trace (fst (module_body env name reqs initial))
    = [EvOpen "COM3" 9600 (Some cause)] ∧
  handles (fst (module_body env name reqs initial)) = [] ∧
  g_ser (fst (module_body env name reqs initial)) = None.
Proof.
  intros Hopen. by rewrite (module_body_refused env name reqs cause Hopen).
Qed.

Lemma open_failure_stops_startup_witness :
  snd (main absent [post_open]) = inl (SerialException DeviceAbsent) ∧
  trace (fst (main absent [post_open]))
    = [EvOpen "COM3" 9600 (Some DeviceAbsent)] ∧
  handles (fst (main absent [post_open])) = [] ∧
  g_ser (fst (main absent [post_open])) = None.
Proof.
  apply (open_failure_stops_startup absent "__main__" [post_open] DeviceAbsent).
  reflexivity.
Defined.

(** C7. When the write raises during [POST /open], the view ends with
    that very exception, and the request is answered with the 500 response
    of the framework, not with the success response. *)
Theorem write_failure_propagates (env : Env) (w : World) (req : Request)
    (h : nat) (e : exn) :
  method req = "POST" → path req = "/open" →
  g_ser w = Some h → write_result env w h = Some e →
  snd (open_door env req w) = inl e ∧
  snd (wsgi_app (app env) req w) = internal_server_error ∧
  snd (wsgi_app (app env) req w) ≠ ok_response.
Proof.
  intros Hm Hpath Hser Hwrite.
  rewrite (open_door_run env req w h Hser).
  rewrite (wsgi_post_open env req w h Hm Hpath Hser), Hwrite.
  by repeat split.
Qed.

Lemma write_failure_propagates_witness :
  snd (open_door flaky post_open opened_once)
    = inl (SerialException Disconnected) ∧
  snd (wsgi_app (app flaky) post_open opened_once) = internal_server_error ∧
  snd (wsgi_app (app flaky) post_open opened_once) ≠ ok_response.
Proof.
  apply (write_failure_propagates flaky opened_once post_open 0%nat
           (SerialException Disconnected)); reflexivity.
Defined.

(** C8. Two [POST /open] requests, whatever their headers, arguments and
    bodies, have the same effect and get the same response in the same
    state: the view reads nothing of the request. *)
Theorem request_content_ignored (env : Env) (w : World) (r1 r2 : Request) :
  method r1 = "POST" → path r1 = "/open" →
  method r2 = "POST" → path r2 = "/open" →
  open_door env r1 w = open_door env r2 w ∧
  wsgi_app (app env) r1 w = wsgi_app (app env) r2 w.
Proof.
  intros Hm1 Hp1 Hm2 Hp2. split; [reflexivity|].
  unfold wsgi_app. rewrite Hm1, Hp1, Hm2, Hp2, app_rules. simpl.
  by rewrite lookup_insert_eq.
Qed.

Lemma request_content_ignored_witness :
  open_door calm post_open listening
    = open_door calm loaded_post_open listening ∧
  wsgi_app (app calm) post_open listening
    = wsgi_app (app calm) loaded_post_open listening.
Proof.
  apply (request_content_ignored calm listening post_open loaded_post_open);
    reflexivity.
Defined.

(** C9. At the end of every run of the module, hence at every moment of
    it, at most one port object is open: it is the one that start-up
    created and bound to [ser], or none when the open was refused.
    Handling a request, of any method and path, leaves the port objects
    and the binding of [ser] as they are and calls [serial.Serial] no
    more. *)
Theorem single_handle (env : Env) :
  (∀ name reqs,
     (open_handles (fst (module_body env name reqs initial)) ≤ 1)%nat ∧
     handles (fst (module_body env name reqs initial))
       = match open_outcome env "COM3" 9600 with
         | None => [com3]
         | Some _ => []
         end ∧
     g_ser (fst (module_body env name reqs initial))
       = match open_outcome env "COM3" 9600 with
         | None => Some 0%nat
         | Some _ => None
         end) ∧
  (∀ req w,
     handles (fst (wsgi_app (app env) req w)) = handles w ∧
     g_ser (fst (wsgi_app (app env) req w)) = g_ser w ∧
     opens (trace (fst (wsgi_app (app env) req w))) = opens (trace w)).
Proof.
  split.
  - intros name reqs.
    destruct (module_body_handles env name reqs) as [Hh Hg].
    split; [|done]. unfold open_handles. rewrite Hh.
    destruct (open_outcome env "COM3" 9600); simpl; lia.
  - intros req w.
    destruct (wsgi_app_keeps env req w) as (Hh & Hg & evs & Ht & Hevs).
    repeat split; [done..|]. rewrite Ht, opens_app, Hevs. lia.
Qed.

(** C10, as stated, fails: OPTIONS is another method than POST, and a
    request [OPTIONS /open] is not refused; the framework answers it with
    200. *)
Lemma options_open_not_rejected :
  "OPTIONS" ≠ "POST" ∧
  status_code (snd (wsgi_app (app calm) (request "OPTIONS" "/open" [])
                      listening)) = 200 ∧
  ¬ rejected (snd (wsgi_app (app calm) (request "OPTIONS" "/open" [])
                     listening)).
Proof.
  rewrite (wsgi_other_method calm (request "OPTIONS" "/open" []) listening)
    by done.
  repeat split; [done|]. unfold rejected. simpl. lia.
Qed.

(** C10, amended. The rule for [/open] has the methods POST and, added
    by the framework, OPTIONS.  A request to [/open] with a method other
    than POST never reaches the view, so nothing is written to the port:
    OPTIONS is answered by the framework itself with 200 and the allowed
    methods, every other method is refused with 405. *)
Theorem other_methods_skip_view (env : Env) (w : World) (req : Request) :
  path req = "/open" → method req ≠ "POST" →
  fst (wsgi_app (app env) req w) = log (EvRequest (method req) "/open") w ∧
  writes (trace (fst (wsgi_app (app env) req w))) = writes (trace w) ∧
  snd (wsgi_app (app env) req w) =
    (if bool_decide (method req = "OPTIONS")
     then {| status_code := 200; mimetype := "text/html";
             body := EmptyBody; allow := ["POST"; "OPTIONS"] |}
     else {| status_code := 405; mimetype := "text/html";
             body := HtmlBody "Method Not Allowed";
             allow := ["POST"; "OPTIONS"] |}) ∧
  (if bool_decide (method req = "OPTIONS") then True
   else rejected (snd (wsgi_app (app env) req w))).
Proof.
  intros Hpath Hm. rewrite (wsgi_other_method env req w Hpath Hm).
  simpl fst. simpl snd. rewrite writes_log_request.
  repeat split. case_bool_decide; [done|]. unfold rejected. simpl. lia.
Qed.

Lemma other_methods_skip_view_witness :
  fst (wsgi_app (app calm) (request "GET" "/open" []) listening)
    = log (EvRequest "GET" "/open") listening ∧
  writes (trace (fst (wsgi_app (app calm) (request "GET" "/open" [])
                        listening))) = [] ∧
  status_code (snd (wsgi_app (app calm) (request "GET" "/open" [])
                      listening)) = 405.
Proof.
  destruct (other_methods_skip_view calm listening
              (request "GET" "/open" []) eq_refl) as (H1 & H2 & H3 & _).
  { discriminate. }
  rewrite H3. by repeat split.
Defined.

(** ** Beyond the claims: requests of any kind *)

Lemma listens_app (tr1 tr2 : list event) :
  listens (tr1 ++ tr2) = listens tr1 ++ listens tr2.
Proof.
  induction tr1 as [|e tr1 IH]; [done|].
  destruct e; simpl; by rewrite ?IH.
Qed.

Lemma door_events_listens (evs : list event) :
  Forall door_event evs → listens evs = [].
Proof.
  induction 1 as [|e evs He _ IH]; [done|]. by destruct e.
Qed.

Lemma door_events_opens (evs : list event) :
  Forall door_event evs → opens evs = 0%nat.
Proof.
  induction 1 as [|e evs He _ IH]; [done|]. by destruct e.
Qed.

(** A request for another path finds no rule. *)
Lemma wsgi_other_path (env : Env) (req : Request) (w : World) :
  path req ≠ "/open" →
  wsgi_app (app env) req w =
    (log (EvRequest (method req) (path req)) w,
     http_exception_response NotFound).
Proof.
  intros Hpath. unfold wsgi_app. rewrite app_rules.
  unfold match_rules. simpl rule.
  by rewrite bool_decide_eq_false_2 by congruence.
Qed.

(** A request that is not [POST /open] only leaves its arrival in the
    trace. *)
Lemma wsgi_not_post_open (env : Env) (req : Request) (w : World) :
  is_post_open req = false →
  fst (wsgi_app (app env) req w) = log (EvRequest (method req) (path req)) w.
Proof.
  intros Hreq.
  destruct (decide (path req = "/open")) as [Hpath|Hpath].
  - destruct (decide (method req = "POST")) as [Hm|Hm].
    + assert (is_post_open req = true) by by apply is_post_open_spec.
      congruence.
    + rewrite (wsgi_other_method env req w Hpath Hm). simpl. by rewrite Hpath.
  - by rewrite (wsgi_other_path env req w Hpath).
Qed.

(** One request in a state of the listening server. *)
Lemma wsgi_app_door (env : Env) (req : Request) (w : World) :
  g_ser w = Some 0%nat →
  ∃ evs, trace (fst (wsgi_app (app env) req w)) = trace w ++ evs ∧
         Forall door_event evs ∧
         writes evs = if is_post_open req then [[x4f]] else [].
Proof.
  intros Hser. destruct (is_post_open req) eqn:Hreq.
  - apply is_post_open_spec in Hreq as [Hm Hpath].
    rewrite (wsgi_post_open env req w 0%nat Hm Hpath Hser). simpl.
    eexists [_; _]. rewrite <- app_assoc. split; [done|].
    split; [|done]. by repeat constructor.
  - rewrite (wsgi_not_post_open env req w Hreq). simpl.
    eexists [_]. split; [done|]. split; [|done]. by repeat constructor.
Qed.

(** A run of requests of any kind in a state of the listening server. *)
Lemma serve_door (env : Env) (reqs : list Request) :
  ∀ w : World,
    g_ser w = Some 0%nat →
    ∃ evs, trace (fst (serve (app env) reqs w)) = trace w ++ evs ∧
           Forall door_event evs ∧
           writes evs = replicate (post_opens reqs) [x4f].
Proof.
  induction reqs as [|req reqs IH]; intros w Hser.
  - exists []. by rewrite app_nil_r.
  - destruct (wsgi_app_door env req w Hser) as (evs1 & Ht1 & Hd1 & Hw1).
    destruct (wsgi_app_keeps env req w) as (_ & Hg & _).
    simpl serve. destruct (wsgi_app (app env) req w) as [w1 resp].
    simpl fst in *. rewrite Hser in Hg.
    destruct (IH w1 Hg) as (evs2 & Ht2 & Hd2 & Hw2).
    destruct (serve (app env) reqs w1) as [w2 resps]. simpl fst in *.
    exists (evs1 ++ evs2). rewrite Ht2, Ht1, <- app_assoc.
    split; [done|]. split; [by apply Forall_app|].
    rewrite writes_app, Hw1, Hw2. unfold post_opens. simpl.
    by destruct (is_post_open req).
Qed.

(** Serving one run after another is serving them as one. *)
Lemma serve_app (env : Env) (reqs1 reqs2 : list Request) :
  ∀ w : World,
    serve (app env) (reqs1 ++ reqs2) w =
      (fst (serve (app env) reqs2 (fst (serve (app env) reqs1 w))),
       snd (serve (app env) reqs1 w)
         ++ snd (serve (app env) reqs2 (fst (serve (app env) reqs1 w)))).
Proof.
  induction reqs1 as [|req reqs1 IH]; intros w.
  - simpl. by destruct (serve (app env) reqs2 w).
  - simpl. destruct (wsgi_app (app env) req w) as [w1 resp].
    rewrite IH. destruct (serve (app env) reqs1 w1) as [w2 resps1].
    simpl. by destruct (serve (app env) reqs2 w2).
Qed.

(** X1. Importing the module instead of running it (any [__name__] but
    ["__main__"]) still calls [serial.Serial('COM3', 9600)], and does
    nothing more: the server never listens and no request is handled.  The
    import fails with the exception of the open when the port is
    refused. *)
Theorem import_opens_but_does_not_serve (env : Env) (name : string)
    (reqs : list Request) :
  name ≠ "__main__" →
  trace (fst (module_body env name reqs initial))
    = [EvOpen "COM3" 9600 (open_outcome env "COM3" 9600)] ∧
  snd (module_body env name reqs initial)
    = match open_outcome env "COM3" 9600 with
      | None => inr []
      | Some cause => inl (SerialException cause)
      end.
Proof.
  intros Hname.
  destruct (open_outcome env "COM3" 9600) as [cause|] eqn:Hopen.
  - by rewrite (module_body_refused env name reqs cause Hopen).
  - by rewrite (module_body_imported env name reqs Hopen Hname).
Qed.

Lemma import_opens_but_does_not_serve_witness :
  trace (fst (module_body calm "serial_handler" traffic initial))
    = [EvOpen "COM3" 9600 None] ∧
  snd (module_body calm "serial_handler" traffic initial) = inr [].
Proof.
  apply (import_opens_but_does_not_serve calm "serial_handler" traffic).
  discriminate.
Defined.

(** X2. A run of the script listens once, on TCP port 3000, right after
    the port has been opened, whatever requests follow; when the port is
    refused it never listens. *)
Theorem script_listens_once_on_3000 (env : Env) (reqs : list Request) :
  match open_outcome env "COM3" 9600 with
  | None =>
      ∃ evs, trace (fst (main env reqs))
               = EvOpen "COM3" 9600 None :: EvListen 3000 :: evs ∧
             listens evs = [] ∧
             listens (trace (fst (main env reqs))) = [3000]
  | Some _ => listens (trace (fst (main env reqs))) = []
  end.
Proof.
  unfold main.
  destruct (open_outcome env "COM3" 9600) as [cause|] eqn:Hopen.
  - by rewrite (module_body_refused env "__main__" reqs cause Hopen).
  - rewrite (module_body_main env reqs Hopen). simpl fst.
    destruct (serve_door env reqs listening eq_refl) as (evs & -> & Hd & _).
    exists evs. simpl. by rewrite (door_events_listens evs Hd).
Qed.

(** X3. A request for any path other than [/open], whatever its method,
    does not reach the view: it leaves its arrival in the trace and
    nothing else, so nothing is written to the port, and it is not
    answered with the success response. *)
Theorem other_paths_skip_view (env : Env) (w : World) (req : Request) :
  path req ≠ "/open" →
  fst (wsgi_app (app env) req w)
    = log (EvRequest (method req) (path req)) w ∧
  writes (trace (fst (wsgi_app (app env) req w))) = writes (trace w) ∧
  snd (wsgi_app (app env) req w) ≠ ok_response.
Proof.
  intros Hpath. rewrite (wsgi_other_path env req w Hpath).
  simpl fst. simpl snd. by rewrite writes_log_request.
Qed.

Lemma other_paths_skip_view_witness :
  fst (wsgi_app (app calm) (request "POST" "/close" []) listening)
    = log (EvRequest "POST" "/close") listening ∧
  writes (trace (fst (wsgi_app (app calm) (request "POST" "/close" [])
                        listening))) = writes (trace listening) ∧
  snd (wsgi_app (app calm) (request "POST" "/close" []) listening)
    ≠ ok_response.
Proof.
  apply (other_paths_skip_view calm listening (request "POST" "/close" [])).
  discriminate.
Defined.

(** X4. In a run of the script that serves requests of any kind, the
    port gets as many writes as there are [POST /open] requests among
    them, each of the byte [b'O'], whether or not the writes succeed. *)
Theorem one_write_per_post_open (env : Env) (reqs : list Request) :
  open_outcome env "COM3" 9600 = None →
  writes (trace (fst (main env reqs))) = replicate (post_opens reqs) [x4f].
Proof.
  intros Hopen. unfold main. rewrite (module_body_main env reqs Hopen).
  simpl fst.
  destruct (serve_door env reqs listening eq_refl) as (evs & -> & _ & Hw).
  by rewrite writes_app, Hw.
Qed.

Lemma one_write_per_post_open_witness :
  writes (trace (fst (main flaky traffic))) = replicate 2 [x4f].
Proof. apply (one_write_per_post_open flaky traffic). reflexivity. Defined.

(** X5. Whatever the hardware does and whatever requests arrive, every
    write of a run of the module is a write of the one byte [b'O']
    through the object of the port COM3 at 9600 baud that start-up
    created. *)
Theorem every_write_goes_to_com3 (env : Env) (name : string)
    (reqs : list Request) :
  Forall (writes_to_com3 (fst (module_body env name reqs initial)))
         (trace (fst (module_body env name reqs initial))).
Proof.
  destruct (open_outcome env "COM3" 9600) as [cause|] eqn:Hopen.
  - rewrite (module_body_refused env name reqs cause Hopen).
    by repeat constructor.
  - destruct (decide (name = "__main__")) as [->|Hname].
    + rewrite (module_body_main env reqs Hopen). simpl fst.
      destruct (serving_state env reqs) as [Hh _].
      destruct (serve_door env reqs listening eq_refl) as (evs & Ht & Hd & _).
      rewrite Ht. simpl. do 2 (constructor; [done|]).
      eapply Forall_impl; [exact Hd|].
      intros [] He; simpl in *; try done.
      destruct He as [-> ->]. by rewrite Hh.
    + rewrite (module_body_imported env name reqs Hopen Hname).
      by repeat constructor.
Qed.

(** X6. The response to a [POST /open] that follows requests of any kind
    depends on one thing only: whether the driver accepts this write, the
    one after as many writes as there were [POST /open] requests before.
    Earlier failures change nothing, and the responses to the earlier
    requests stay as they were. *)
Theorem post_open_after_any_history (env : Env) (reqs : list Request)
    (req : Request) :
  open_outcome env "COM3" 9600 = None →
  method req = "POST" → path req = "/open" →
  ∃ resps,
    snd (main env reqs) = inr resps ∧
    snd (main env (reqs ++ [req])) =
      inr (resps ++ [match write_outcome env (post_opens reqs) with
                     | None => ok_response
                     | Some _ => internal_server_error
                     end]).
Proof.
  intros Hopen Hm Hpath. unfold main.
  rewrite (module_body_main env reqs Hopen).
  rewrite (module_body_main env (reqs ++ [req]) Hopen).
  rewrite serve_app. simpl snd. eexists; split; [done|].
  destruct (serving_state env reqs) as [Hh Hg].
  destruct (serve_door env reqs listening eq_refl) as (evs & Ht & _ & Hw).
  set (w := fst (serve (app env) reqs listening)) in *.
  simpl serve. rewrite (wsgi_post_open env req w 0%nat Hm Hpath Hg).
  rewrite (write_result_open env w 0%nat com3) by by rewrite ?Hh.
  rewrite Ht, writes_app, Hw. simpl. by rewrite length_replicate.
Qed.

Lemma post_open_after_any_history_witness :
  ∃ resps,
    snd (main flaky traffic) = inr resps ∧
    snd (main flaky (traffic ++ [post_open])) =
      inr (resps ++ [match write_outcome flaky (post_opens traffic) with
                     | None => ok_response
                     | Some _ => internal_server_error
                     end]).
Proof.
  apply (post_open_after_any_history flaky traffic post_open); reflexivity.
Defined.
